(** * ginmetrics: the Monitor registry of [ginmetrics/types.go]

    A shallow embedding of the package's registry ([Monitor], [GetMonitor],
    [GetMetric], the setters, [AddMetric] and the four per-kind handlers),
    followed by the properties proved about it.

    Go values are modelled as follows.
    - [*Metric] and [*Monitor] are addresses into two object stores (lists
      indexed by address).  Two names for one address see the same object, so
      a handler's write to [metric.vec] is visible through every alias.  An
      address outside the store plays the part of [nil]: dereferencing it
      panics.
    - A Go map is a [gmap]; [m[k]] with the comma-ok form is [m !! k].  A
      Monitor's two maps are the ones [GetMonitor] makes (the package has no
      other constructor and the fields are unexported).
    - [error] is [option string]: [None] is [nil], [Some msg] carries the text
      that [errors.Errorf] formats.
    - A panic ends the run: [Panic] carries no state.
    - [int] and [int32] values are in [Z]: the code stores, compares and
      prints them and does no arithmetic on them.
    - [float64] literals are binary64 values ([PrimFloat.float]); they are
      only stored, never computed with. *)

From Stdlib Require Import Floats.
From stdpp Require Import base list gmap strings pretty.

Set Warnings "-inexact-float".
Set Default Proof Using "Type".

(** ** Metric kinds *)

(** [type MetricType int] with the [iota] constants. *)
Definition MetricType : Type := Z.

Definition None_ : MetricType := 0%Z.
Definition Counter : MetricType := 1%Z.
Definition Gauge : MetricType := 2%Z.
Definition Histogram : MetricType := 3%Z.
Definition Summary : MetricType := 4%Z.

Definition defaultMetricPath : string := "/debug/metrics".
Definition defaultSlowTime : Z := 5%Z.
Definition defaultExcludePaths : list string := [].
Definition defaultDuration : list float := [0.1; 0.3; 1.2; 5; 10]%float.

(** ** Collectors of the metrics library

    The library's vector collectors are opaque to this package: a collector is
    recorded as the constructor call that made it. *)
Inductive Collector : Type :=
  | NewCounterVec (name help : string) (labels : list string)
  | NewGaugeVec (name help : string) (labels : list string)
  | NewHistogramVec (name help : string) (buckets : list float)
      (labels : list string)
  | NewSummaryVec (name help : string) (objectives : list (float * float))
      (labels : list string).

(** Modelled from the spec: the [Metric] struct is declared in a file of the
    package that is not part of the sources at hand; its fields are the ones
    the spec lists and [types.go] reads and writes.  [Type_] is the field
    [Type]; [Objectives] (a Go map from quantile to tolerance, of which the
    code only takes [len]) is kept as an association list. *)
Record Metric : Type := mkMetric {
  Type_ : MetricType;
  Name : string;
  Description : string;
  Labels : list string;
  Buckets : list float;
  Objectives : list (float * float);
  vec : option Collector
}.

(** The zero value [Metric{}]. *)
Definition zeroMetric : Metric :=
  mkMetric None_ "" "" [] [] [] None.

Definition set_vec (c : Collector) (mt : Metric) : Metric :=
  mkMetric (Type_ mt) (Name mt) (Description mt) (Labels mt) (Buckets mt)
    (Objectives mt) (Some c).

(** ** The Monitor *)

Record Monitor : Type := mkMonitor {
  slowTime : Z;
  metricPath : string;
  excludePaths : list string;
  reqDuration : list float;
  metrics : gmap string nat;
  metadata : gmap string string
}.

(** Modelled from the spec: the seven well-known metric names are package
    variables declared in a file that is not part of the sources at hand;
    their initial values are left open. *)
Record MetricNames : Type := mkNames {
  metricRequestTotal : string;
  metricRequestUVTotal : string;
  metricURIRequestTotal : string;
  metricRequestBody : string;
  metricResponseBody : string;
  metricRequestDuration : string;
  metricSlowRequest : string
}.

(** ** Sample values for the examples

    The names below stand in for the initial values of the seven package
    variables; the exporter keeps the names it has registered and panics on a
    name it already has. *)
Definition sampleNames : MetricNames :=
  mkNames "request_total" "request_uv_total" "uri_request_total"
    "request_body_total" "response_body_total" "request_duration"
    "slow_request_total".

Definition collectorName (c : Collector) : string :=
  match c with
  | NewCounterVec name _ _ => name
  | NewGaugeVec name _ _ => name
  | NewHistogramVec name _ _ _ => name
  | NewSummaryVec name _ _ _ => name
  end.

Definition sampleRegister (r : list string) (c : Collector)
    : option (list string) :=
  if decide (collectorName c ∈ r) then None else Some (collectorName c :: r).

Section Registry.

(** The exporter is external: [Registerer] is the state of the library's
    default registry and [MustRegister r c] the registry after registering
    [c], or [None] when [prometheus.MustRegister] panics. *)
Context {Registerer : Type}.
Variable MustRegister : Registerer → Collector → option Registerer.

(** ** Program state: the two object stores and the package variables *)

Record State : Type := mkState {
  metricHeap : list Metric;
  monitorHeap : list Monitor;
  monitor : option nat;
  names : MetricNames;
  registerer : Registerer
}.

Definition set_metricHeap (h : list Metric) (s : State) : State :=
  mkState h (monitorHeap s) (monitor s) (names s) (registerer s).
Definition set_monitorHeap (h : list Monitor) (s : State) : State :=
  mkState (metricHeap s) h (monitor s) (names s) (registerer s).
Definition set_monitor (p : option nat) (s : State) : State :=
  mkState (metricHeap s) (monitorHeap s) p (names s) (registerer s).
Definition set_names (n : MetricNames) (s : State) : State :=
  mkState (metricHeap s) (monitorHeap s) (monitor s) n (registerer s).
Definition set_registerer (r : Registerer) (s : State) : State :=
  mkState (metricHeap s) (monitorHeap s) (monitor s) (names s) r.

(** ** A state monad with panics *)

Inductive outcome (A : Type) : Type :=
  | Ret (a : A) (s : State)
  | Panic.
Arguments Ret {A} a s.
Arguments Panic {A}.

Definition M (A : Type) : Type := State → outcome A.

Definition ret {A} (a : A) : M A := fun s => Ret a s.

Definition bind {A B} (c : M A) (k : A → M B) : M B :=
  fun s => match c s with
           | Ret a s' => k a s'
           | Panic => Panic
           end.

Notation "'do' x <- c ; k" := (bind c (fun x => k))
  (at level 10, x name, c at level 100, k at level 200).
Notation "c ;; k" := (bind c (fun _ => k))
  (at level 100, k at level 200, right associativity).

(** [*p] for [p : *Metric]. *)
Definition loadMetric (p : nat) : M Metric :=
  fun s => match metricHeap s !! p with
           | Some mt => Ret mt s
           | None => Panic
           end.

(** [*p = mt]. *)
Definition storeMetric (p : nat) (mt : Metric) : M unit :=
  fun s => match metricHeap s !! p with
           | Some _ => Ret tt (set_metricHeap (<[p := mt]> (metricHeap s)) s)
           | None => Panic
           end.

(** [&Metric{...}]: a new object at the next free address. *)
Definition newMetric (mt : Metric) : M nat :=
  fun s => Ret (length (metricHeap s))
               (set_metricHeap (metricHeap s ++ [mt]) s).

Definition loadMonitor (m : nat) : M Monitor :=
  fun s => match monitorHeap s !! m with
           | Some mon => Ret mon s
           | None => Panic
           end.

Definition storeMonitor (m : nat) (mon : Monitor) : M unit :=
  fun s => match monitorHeap s !! m with
           | Some _ => Ret tt (set_monitorHeap (<[m := mon]> (monitorHeap s)) s)
           | None => Panic
           end.

Definition newMonitor (mon : Monitor) : M nat :=
  fun s => Ret (length (monitorHeap s))
               (set_monitorHeap (monitorHeap s ++ [mon]) s).

(** ** The package's functions *)

(** [GetMonitor]: the package variable [monitor] is set on the first call. *)
Definition GetMonitor : M nat :=
  fun s => match monitor s with
           | None =>
               (do p <- newMonitor
                          (mkMonitor defaultSlowTime defaultMetricPath
                             defaultExcludePaths defaultDuration ∅ ∅);
                fun s' => Ret p (set_monitor (Some p) s')) s
           | Some p => Ret p s
           end.

(** [GetMetric]: the stored pointer, or a pointer to a new zero [Metric]. *)
Definition GetMetric (m : nat) (name : string) : M nat :=
  do mon <- loadMonitor m;
  match metrics mon !! name with
  | Some metric => ret metric
  | None => newMetric zeroMetric
  end.

Definition SetMetricPath (m : nat) (path : string) : M unit :=
  do mon <- loadMonitor m;
  storeMonitor m
    (mkMonitor (slowTime mon) path (excludePaths mon) (reqDuration mon)
       (metrics mon) (metadata mon)).

Definition SetExcludePaths (m : nat) (paths : list string) : M unit :=
  do mon <- loadMonitor m;
  storeMonitor m
    (mkMonitor (slowTime mon) (metricPath mon) paths (reqDuration mon)
       (metrics mon) (metadata mon)).

Definition SetSlowTime (m : nat) (t : Z) : M unit :=
  do mon <- loadMonitor m;
  storeMonitor m
    (mkMonitor t (metricPath mon) (excludePaths mon) (reqDuration mon)
       (metrics mon) (metadata mon)).

Definition SetDuration (m : nat) (duration : list float) : M unit :=
  do mon <- loadMonitor m;
  storeMonitor m
    (mkMonitor (slowTime mon) (metricPath mon) (excludePaths mon) duration
       (metrics mon) (metadata mon)).

(** The receiver is not dereferenced by the prefix and suffix setters. *)
Definition SetMetricPrefix (m : nat) (prefix : string) : M unit :=
  fun s =>
    let n := names s in
    Ret tt (set_names
              (mkNames (prefix +:+ metricRequestTotal n)
                 (prefix +:+ metricRequestUVTotal n)
                 (prefix +:+ metricURIRequestTotal n)
                 (prefix +:+ metricRequestBody n)
                 (prefix +:+ metricResponseBody n)
                 (prefix +:+ metricRequestDuration n)
                 (prefix +:+ metricSlowRequest n)) s).

Definition SetMetricSuffix (m : nat) (suffix : string) : M unit :=
  fun s =>
    let n := names s in
    Ret tt (set_names
              (mkNames (metricRequestTotal n +:+ suffix)
                 (metricRequestUVTotal n +:+ suffix)
                 (metricURIRequestTotal n +:+ suffix)
                 (metricRequestBody n +:+ suffix)
                 (metricResponseBody n +:+ suffix)
                 (metricRequestDuration n +:+ suffix)
                 (metricSlowRequest n +:+ suffix)) s).

(** *** Per-kind handlers *)

Definition counterHandler (metric : nat) : M (option string) :=
  do mt <- loadMetric metric;
  storeMetric metric
    (set_vec (NewCounterVec (Name mt) (Description mt) (Labels mt)) mt);;
  ret None.

Definition gaugeHandler (metric : nat) : M (option string) :=
  do mt <- loadMetric metric;
  storeMetric metric
    (set_vec (NewGaugeVec (Name mt) (Description mt) (Labels mt)) mt);;
  ret None.

Definition histogramHandler (metric : nat) : M (option string) :=
  do mt <- loadMetric metric;
  if decide (length (Buckets mt) = 0) then
    ret (Some ("metric '" +:+ Name mt
               +:+ "' is histogram type, cannot lose bucket param."))
  else
    storeMetric metric
      (set_vec (NewHistogramVec (Name mt) (Description mt) (Buckets mt)
                  (Labels mt)) mt);;
    ret None.

Definition summaryHandler (metric : nat) : M (option string) :=
  do mt <- loadMetric metric;
  if decide (length (Objectives mt) = 0) then
    ret (Some ("metric '" +:+ Name mt
               +:+ "' is summary type, cannot lose objectives param."))
  else
    storeMetric metric
      (set_vec (NewSummaryVec (Name mt) (Description mt) (Objectives mt)
                  (Labels mt)) mt);;
    ret None.

(** The dispatch table [promTypeHandler]. *)
Definition promTypeHandler : gmap Z (nat → M (option string)) :=
  {[ Counter := counterHandler;
     Gauge := gaugeHandler;
     Histogram := histogramHandler;
     Summary := summaryHandler ]}.

(** [prometheus.MustRegister(c)] on a collector interface value. *)
Definition mustRegister (c : option Collector) : M unit :=
  fun s => match c with
           | Some c' =>
               match MustRegister (registerer s) c' with
               | Some r => Ret tt (set_registerer r s)
               | None => Panic
               end
           | None => Panic
           end.

(** The text of [errors.Errorf("metric type '%d' not existed.", t)]. *)
Definition unknownTypeError (t : MetricType) : string :=
  "metric type '" +:+ pretty t +:+ "' not existed.".

(** The Monitor [mon] with [metric] stored under [name]. *)
Definition withMetric (name : string) (metric : nat) (mon : Monitor) : Monitor :=
  mkMonitor (slowTime mon) (metricPath mon) (excludePaths mon)
    (reqDuration mon) (<[name := metric]> (metrics mon)) (metadata mon).

(** [m.metrics[name] = metric]. *)
Definition insertMetric (m : nat) (name : string) (metric : nat) : M unit :=
  do mon <- loadMonitor m;
  storeMonitor m (withMetric name metric mon).

(** The final [return errors.Errorf(...)] of [AddMetric], reached when the
    dispatch finds no handler and when the handler returns an error. *)
Definition unknownType (metric : nat) : M (option string) :=
  do mt <- loadMetric metric;
  ret (Some (unknownTypeError (Type_ mt))).

(** The statements guarded by [err == nil] in [AddMetric]. *)
Definition registerMetric (m metric : nat) : M (option string) :=
  do mt <- loadMetric metric;
  mustRegister (vec mt);;
  insertMetric m (Name mt) metric;;
  ret None.

Definition AddMetric (m metric : nat) : M (option string) :=
  do mt <- loadMetric metric;
  do mon <- loadMonitor m;
  match metrics mon !! Name mt with
  | Some _ => ret (Some ("metric '" +:+ Name mt +:+ "' is existed"))
  | None =>
      if decide (Name mt = "") then
        ret (Some "metric name cannot be empty.")
      else
        match promTypeHandler !! Type_ mt with
        | Some f =>
            do err <- f metric;
            match err with
            | None => registerMetric m metric
            | Some _ => unknownType metric
            end
        | None => unknownType metric
        end
  end.

(** ** Runs of a client program

    A client calls the package's functions and, between calls, makes its own
    [Metric] values and assigns to their exported fields.  The field [vec] is
    unexported: a client's composite literal leaves it [nil] and a field
    assignment leaves it as it is. *)
Inductive Op : Type :=
  | CallGetMonitor
  | CallGetMetric (m : nat) (name : string)
  | CallSetMetricPath (m : nat) (path : string)
  | CallSetExcludePaths (m : nat) (paths : list string)
  | CallSetSlowTime (m : nat) (t : Z)
  | CallSetDuration (m : nat) (duration : list float)
  | CallSetMetricPrefix (m : nat) (prefix : string)
  | CallSetMetricSuffix (m : nat) (suffix : string)
  | CallAddMetric (m metric : nat)
  | ClientNewMetric (t : MetricType) (name description : string)
      (labels : list string) (buckets : list float)
      (objectives : list (float * float))
  | ClientAssign (metric : nat) (t : MetricType) (name description : string)
      (labels : list string) (buckets : list float)
      (objectives : list (float * float)).

Definition exec (o : Op) : M unit :=
  match o with
  | CallGetMonitor => GetMonitor;; ret tt
  | CallGetMetric m name => GetMetric m name;; ret tt
  | CallSetMetricPath m path => SetMetricPath m path
  | CallSetExcludePaths m paths => SetExcludePaths m paths
  | CallSetSlowTime m t => SetSlowTime m t
  | CallSetDuration m duration => SetDuration m duration
  | CallSetMetricPrefix m prefix => SetMetricPrefix m prefix
  | CallSetMetricSuffix m suffix => SetMetricSuffix m suffix
  | CallAddMetric m metric => AddMetric m metric;; ret tt
  | ClientNewMetric t name description labels buckets objectives =>
      newMetric (mkMetric t name description labels buckets objectives None);;
      ret tt
  | ClientAssign metric t name description labels buckets objectives =>
      do mt <- loadMetric metric;
      storeMetric metric
        (mkMetric t name description labels buckets objectives (vec mt))
  end.

Fixpoint execAll (os : list Op) : M unit :=
  match os with
  | [] => ret tt
  | o :: os' => exec o;; execAll os'
  end.

(** The state at program start: no object yet, [monitor] is [nil]. *)
Definition initial (s : State) : Prop :=
  metricHeap s = [] ∧ monitorHeap s = [] ∧ monitor s = None.

Definition reachable (s : State) : Prop :=
  ∃ s0 os, initial s0 ∧ execAll os s0 = Ret tt s.

(** The object at address [p] has its collector handle. *)
Definition vec_set (s : State) (p : nat) : Prop :=
  ∃ mt c, metricHeap s !! p = Some mt ∧ vec mt = Some c.

(** The collector that the handler of [mt]'s kind builds: none for a kind
    without handler and for a handler that returns an error. *)
Definition collectorFor (mt : Metric) : option Collector :=
  if decide (Type_ mt = Counter) then
    Some (NewCounterVec (Name mt) (Description mt) (Labels mt))
  else if decide (Type_ mt = Gauge) then
    Some (NewGaugeVec (Name mt) (Description mt) (Labels mt))
  else if decide (Type_ mt = Histogram) then
    if decide (length (Buckets mt) = 0) then None
    else Some (NewHistogramVec (Name mt) (Description mt) (Buckets mt)
                 (Labels mt))
  else if decide (Type_ mt = Summary) then
    if decide (length (Objectives mt) = 0) then None
    else Some (NewSummaryVec (Name mt) (Description mt) (Objectives mt)
                 (Labels mt))
  else None.

(** A setter of a Monitor field stores a Monitor with the same registry. *)
Definition field_update (m : nat) (s s' : State) : Prop :=
  ∃ mon mon', monitorHeap s !! m = Some mon ∧
    metrics mon' = metrics mon ∧ metadata mon' = metadata mon ∧
    s' = set_monitorHeap (<[m := mon']> (monitorHeap s)) s.

(** What every step keeps: [monitor], once set, stays; a collector handle,
    once stored, stays; and a registry entry of the new state is an old one or
    was stored under a non-empty name with its handle in place. *)
Definition evolves (s s' : State) : Prop :=
  (∀ p, monitor s = Some p → monitor s' = Some p) ∧
  (∀ p, vec_set s p → vec_set s' p) ∧
  (∀ m mon' name p,
     monitorHeap s' !! m = Some mon' → metrics mon' !! name = Some p →
     (name ≠ "" ∧ vec_set s' p) ∨
     (∃ mon, monitorHeap s !! m = Some mon ∧ metrics mon !! name = Some p)).

(** The registry never holds the empty name, and every pointer it holds is to
    an object with its collector handle. *)
Definition registry_ok (s : State) : Prop :=
  ∀ m mon name p,
    monitorHeap s !! m = Some mon → metrics mon !! name = Some p →
    name ≠ "" ∧ vec_set s p.

(** [s'] is [s] with the Monitor at [m] replaced by [mon']: nothing else
    differs. *)
Definition updates_monitor (m : nat) (mon' : Monitor) (s s' : State) : Prop :=
  monitorHeap s' = <[m := mon']> (monitorHeap s) ∧
  metricHeap s' = metricHeap s ∧ monitor s' = monitor s ∧
  names s' = names s ∧ registerer s' = registerer s.

(** The state at program start, a client run on it, and the state the run
    ends in (when the exporter accepts the one registration): address 0 holds
    the registered Counter, addresses 1 to 4 hold declarations that were never
    passed to [AddMetric]. *)
Definition startState (n : MetricNames) (r : Registerer) : State :=
  mkState [] [] None n r.

Definition sampleRun : list Op :=
  [CallGetMonitor;
   ClientNewMetric Counter "http_requests" "" ["method"; "path"] [] [];
   CallAddMetric 0 0;
   ClientNewMetric 9%Z "http_requests" "" [] [] [];
   ClientNewMetric 9%Z "" "" [] [] [];
   ClientNewMetric 7%Z "k" "" [] [] [];
   ClientNewMetric Gauge "in_flight" "" [] [] []].

Definition sampleMonitor : Monitor :=
  mkMonitor defaultSlowTime defaultMetricPath defaultExcludePaths
    defaultDuration {[ "http_requests" := 0 ]} ∅.

Definition afterSampleRun (n : MetricNames) (r : Registerer) : State :=
  mkState
    [mkMetric Counter "http_requests" "" ["method"; "path"] [] []
       (Some (NewCounterVec "http_requests" "" ["method"; "path"]));
     mkMetric 9%Z "http_requests" "" [] [] [] None;
     mkMetric 9%Z "" "" [] [] [] None;
     mkMetric 7%Z "k" "" [] [] [] None;
     mkMetric Gauge "in_flight" "" [] [] [] None]
    [sampleMonitor] (Some 0) n r.

(** A state for examples: a Histogram declaration without buckets at address
    0, a Summary declaration without objectives at address 1, and the Monitor
    that [GetMonitor] makes at address 0. *)
Definition sampleState (n : MetricNames) (r : Registerer) : State :=
  mkState
    [mkMetric Histogram "req_latency" "" [] [] [] None;
     mkMetric Summary "req_quantiles" "" [] [] [] None]
    [mkMonitor defaultSlowTime defaultMetricPath defaultExcludePaths
       defaultDuration ∅ ∅]
    (Some 0) n r.

(** The collector [c] is the one that the handler of [mt]'s kind stores: the
    success branches of the four handlers, read off with their guards. *)
Definition handlerBuilds (mt : Metric) (c : Collector) : Prop :=
  (Type_ mt = Counter ∧
   c = NewCounterVec (Name mt) (Description mt) (Labels mt)) ∨
  (Type_ mt = Gauge ∧
   c = NewGaugeVec (Name mt) (Description mt) (Labels mt)) ∨
  (Type_ mt = Histogram ∧ Buckets mt ≠ [] ∧
   c = NewHistogramVec (Name mt) (Description mt) (Buckets mt) (Labels mt)) ∨
  (Type_ mt = Summary ∧ Objectives mt ≠ [] ∧
   c = NewSummaryVec (Name mt) (Description mt) (Objectives mt) (Labels mt)).

(** Two [Metric] values agree on every exported field. *)
Definition sameExported (a b : Metric) : Prop :=
  Type_ a = Type_ b ∧ Name a = Name b ∧ Description a = Description b ∧
  Labels a = Labels b ∧ Buckets a = Buckets b ∧ Objectives a = Objectives b.

(** At most one Monitor exists, and [monitor] points to it. *)
Definition single_monitor (s : State) : Prop :=
  (monitor s = None ∧ monitorHeap s = []) ∨
  (monitor s = Some 0 ∧ length (monitorHeap s) = 1).

(** The state an outcome ends in ([d] after a panic); used to name the result
    of a concrete run. *)
Definition stateOf {A : Type} (o : outcome A) (d : State) : State :=
  match o with
  | Ret _ s => s
  | Panic => d
  end.

(** * Properties *)

(** ** The dispatch table and the handlers *)

Lemma promTypeHandler_lookup (t : MetricType) :
  promTypeHandler !! t =
    if decide (t = Counter) then Some counterHandler
    else if decide (t = Gauge) then Some gaugeHandler
    else if decide (t = Histogram) then Some histogramHandler
    else if decide (t = Summary) then Some summaryHandler
    else None.
Proof.
  unfold promTypeHandler.
  repeat case_decide; subst;
    repeat (rewrite lookup_insert_ne by done);
    try (by rewrite lookup_insert_eq);
    try (by rewrite lookup_singleton_eq).
  by rewrite lookup_singleton_ne.
Qed.

Lemma storeMetric_live (s : State) (p : nat) (mt mt' : Metric) :
  metricHeap s !! p = Some mt →
  storeMetric p mt' s = Ret tt (set_metricHeap (<[p := mt']> (metricHeap s)) s).
Proof. intros H. unfold storeMetric. by rewrite H. Qed.

Lemma storeMonitor_live (s : State) (m : nat) (mon mon' : Monitor) :
  monitorHeap s !! m = Some mon →
  storeMonitor m mon' s
  = Ret tt (set_monitorHeap (<[m := mon']> (monitorHeap s)) s).
Proof. intros H. unfold storeMonitor. by rewrite H. Qed.

(** What the handler of a kind does to a live [metric]: it returns an error
    and leaves the state alone, or stores the collector it built. *)
Lemma handler_run (f : nat → M (option string)) (s : State) (metric : nat)
    (mt : Metric) :
  promTypeHandler !! Type_ mt = Some f →
  metricHeap s !! metric = Some mt →
  match collectorFor mt with
  | Some c =>
      f metric s
      = Ret None (set_metricHeap (<[metric := set_vec c mt]> (metricHeap s)) s)
  | None => ∃ e, f metric s = Ret (Some e) s
  end.
Proof.
  intros Hf Hmt. rewrite promTypeHandler_lookup in Hf. unfold collectorFor.
  repeat case_decide; simplify_eq;
    unfold counterHandler, gaugeHandler, histogramHandler, summaryHandler,
      bind, loadMetric, ret; rewrite Hmt;
    repeat case_decide; try done; eauto;
    by rewrite (storeMetric_live _ _ mt).
Qed.

Lemma handler_none (mt : Metric) :
  promTypeHandler !! Type_ mt = None → collectorFor mt = None.
Proof.
  rewrite promTypeHandler_lookup. unfold collectorFor.
  by repeat case_decide.
Qed.

(** The verb [%d] prints a kind in decimal, with a sign when negative. *)
Example unknownTypeError_samples :
  unknownTypeError None_ = "metric type '0' not existed." ∧
  unknownTypeError 12%Z = "metric type '12' not existed." ∧
  unknownTypeError (-5)%Z = "metric type '-5' not existed.".
Proof. by repeat split. Qed.

(** ** [AddMetric] in one equation *)

Lemma AddMetric_eq (s : State) (m metric : nat) (mt : Metric) (mon : Monitor) :
  metricHeap s !! metric = Some mt →
  monitorHeap s !! m = Some mon →
  AddMetric m metric s =
    match metrics mon !! Name mt with
    | Some _ => Ret (Some ("metric '" +:+ Name mt +:+ "' is existed")) s
    | None =>
        if decide (Name mt = "") then Ret (Some "metric name cannot be empty.") s
        else
          match collectorFor mt with
          | None => Ret (Some (unknownTypeError (Type_ mt))) s
          | Some c =>
              match MustRegister (registerer s) c with
              | None => Panic
              | Some r =>
                  Ret None
                    (mkState (<[metric := set_vec c mt]> (metricHeap s))
                       (<[m := withMetric (Name mt) metric mon]> (monitorHeap s))
                       (monitor s) (names s) r)
              end
          end
    end.
Proof.
  intros Hmt Hmon. unfold AddMetric, bind at 1 2, loadMetric at 1, loadMonitor.
  rewrite Hmt, Hmon. destruct (metrics mon !! Name mt) as [q|]; [done|].
  case_decide; [done|].
  destruct (promTypeHandler !! Type_ mt) as [f|] eqn:Hf.
  - pose proof (handler_run f s metric mt Hf Hmt) as Hrun.
    unfold bind. destruct (collectorFor mt) as [c|].
    + rewrite Hrun. unfold registerMetric, bind, loadMetric, mustRegister,
        insertMetric, bind, loadMonitor, ret. simpl.
      rewrite list_lookup_insert_eq by (by eapply lookup_lt_Some).
      simpl. destruct (MustRegister (registerer s) c) as [r|]; [|done].
      simpl. rewrite Hmon. unfold storeMonitor. simpl. by rewrite Hmon.
    + destruct Hrun as [e ->]. unfold unknownType, bind, loadMetric, ret.
      by rewrite Hmt.
  - rewrite (handler_none mt Hf). unfold unknownType, bind, loadMetric, ret.
    by rewrite Hmt.
Qed.

(** ** Inversion of the package's functions *)

Lemma AddMetric_live (s s' : State) (m metric : nat) (r : option string) :
  AddMetric m metric s = Ret r s' →
  ∃ mt mon, metricHeap s !! metric = Some mt ∧ monitorHeap s !! m = Some mon.
Proof.
  unfold AddMetric, bind at 1 2, loadMetric at 1, loadMonitor. intros H.
  destruct (metricHeap s !! metric) as [mt|]; [|done].
  destruct (monitorHeap s !! m) as [mon|]; [|done]. eauto.
Qed.

Lemma AddMetric_error_inv (s s' : State) (m metric : nat) (e : string) :
  AddMetric m metric s = Ret (Some e) s' → s' = s.
Proof.
  intros H. destruct (AddMetric_live _ _ _ _ _ H) as (mt & mon & Hmt & Hmon).
  rewrite (AddMetric_eq s m metric mt mon Hmt Hmon) in H.
  repeat case_match; by simplify_eq.
Qed.

Lemma AddMetric_success_inv (s s' : State) (m metric : nat) :
  AddMetric m metric s = Ret None s' →
  ∃ mt mon c r,
    metricHeap s !! metric = Some mt ∧ monitorHeap s !! m = Some mon ∧
    metrics mon !! Name mt = None ∧ Name mt ≠ "" ∧
    collectorFor mt = Some c ∧ MustRegister (registerer s) c = Some r ∧
    s' = mkState (<[metric := set_vec c mt]> (metricHeap s))
           (<[m := withMetric (Name mt) metric mon]> (monitorHeap s))
           (monitor s) (names s) r.
Proof.
  intros H. destruct (AddMetric_live _ _ _ _ _ H) as (mt & mon & Hmt & Hmon).
  rewrite (AddMetric_eq s m metric mt mon Hmt Hmon) in H.
  exists mt, mon. repeat case_match; simplify_eq. eauto 10.
Qed.

Lemma GetMonitor_inv (s s' : State) (p : nat) :
  GetMonitor s = Ret p s' →
  (monitor s = Some p ∧ s' = s) ∨
  (monitor s = None ∧ p = length (monitorHeap s) ∧
   s' = set_monitor (Some p)
          (set_monitorHeap
             (monitorHeap s ++
                [mkMonitor defaultSlowTime defaultMetricPath
                   defaultExcludePaths defaultDuration ∅ ∅]) s)).
Proof.
  unfold GetMonitor, bind, newMonitor. intros H.
  destruct (monitor s) as [q|]; simplify_eq; auto.
Qed.

Lemma GetMetric_inv (s s' : State) (m p : nat) (name : string) :
  GetMetric m name s = Ret p s' →
  ∃ mon, monitorHeap s !! m = Some mon ∧
    ((metrics mon !! name = Some p ∧ s' = s) ∨
     (metrics mon !! name = None ∧ p = length (metricHeap s) ∧
      s' = set_metricHeap (metricHeap s ++ [zeroMetric]) s)).
Proof.
  unfold GetMetric, bind, loadMonitor, newMetric, ret. intros H.
  destruct (monitorHeap s !! m) as [mon|]; [|done]. exists mon. split; [done|].
  destruct (metrics mon !! name) as [q|]; simplify_eq; auto.
Qed.

Lemma SetMetricPath_inv (s s' : State) (m : nat) (path : string) :
  SetMetricPath m path s = Ret tt s' → field_update m s s'.
Proof.
  unfold SetMetricPath, bind, loadMonitor. intros H.
  destruct (monitorHeap s !! m) as [mon|] eqn:Hmon; [|done].
  rewrite (storeMonitor_live _ _ mon) in H by done. simplify_eq.
  eexists mon, _. split; [done|]. split; [|split]; [| |reflexivity]; done.
Qed.

Lemma SetExcludePaths_inv (s s' : State) (m : nat) (paths : list string) :
  SetExcludePaths m paths s = Ret tt s' → field_update m s s'.
Proof.
  unfold SetExcludePaths, bind, loadMonitor. intros H.
  destruct (monitorHeap s !! m) as [mon|] eqn:Hmon; [|done].
  rewrite (storeMonitor_live _ _ mon) in H by done. simplify_eq.
  eexists mon, _. split; [done|]. split; [|split]; [| |reflexivity]; done.
Qed.

Lemma SetSlowTime_inv (s s' : State) (m : nat) (t : Z) :
  SetSlowTime m t s = Ret tt s' → field_update m s s'.
Proof.
  unfold SetSlowTime, bind, loadMonitor. intros H.
  destruct (monitorHeap s !! m) as [mon|] eqn:Hmon; [|done].
  rewrite (storeMonitor_live _ _ mon) in H by done. simplify_eq.
  eexists mon, _. split; [done|]. split; [|split]; [| |reflexivity]; done.
Qed.

Lemma SetDuration_inv (s s' : State) (m : nat) (duration : list float) :
  SetDuration m duration s = Ret tt s' → field_update m s s'.
Proof.
  unfold SetDuration, bind, loadMonitor. intros H.
  destruct (monitorHeap s !! m) as [mon|] eqn:Hmon; [|done].
  rewrite (storeMonitor_live _ _ mon) in H by done. simplify_eq.
  eexists mon, _. split; [done|]. split; [|split]; [| |reflexivity]; done.
Qed.

(** ** One step of a run *)

Lemma evolves_refl (s : State) : evolves s s.
Proof. split; [done|]. split; [done|]. intros m mon' name p ??. eauto. Qed.

Lemma evolves_same_heaps (s s' : State) :
  metricHeap s' = metricHeap s → monitorHeap s' = monitorHeap s →
  monitor s' = monitor s → evolves s s'.
Proof.
  intros Hh Hm Hp. unfold evolves, vec_set. rewrite Hh, Hm, Hp.
  split; [done|]. split; [done|]. eauto.
Qed.

Lemma evolves_field_update (s s' : State) (m : nat) :
  field_update m s s' → evolves s s'.
Proof.
  intros (mon & mon' & Hmon & Hreg & _ & ->). split; [done|]. split; [done|].
  intros m' mon'' name p Hm' Hname. right. simpl in Hm'.
  apply list_lookup_insert_Some in Hm' as [(-> & -> & _)|[_ Hm']]; [|eauto].
  exists mon. by rewrite <-Hreg.
Qed.

Lemma vec_set_alloc (s : State) (mt : Metric) (p : nat) :
  vec_set s p → vec_set (set_metricHeap (metricHeap s ++ [mt]) s) p.
Proof.
  intros (mt' & c & Hp & Hc). exists mt', c. split; [|done]. simpl.
  by apply lookup_app_l_Some.
Qed.

Lemma evolves_alloc (s : State) (mt : Metric) :
  evolves s (set_metricHeap (metricHeap s ++ [mt]) s).
Proof.
  split; [done|]. split; [intros p; apply vec_set_alloc|].
  intros m mon' name p ??. eauto.
Qed.

Lemma vec_set_store (s : State) (q : nat) (mt mt' : Metric) (p : nat) :
  metricHeap s !! q = Some mt → (is_Some (vec mt) → is_Some (vec mt')) →
  vec_set s p → vec_set (set_metricHeap (<[q := mt']> (metricHeap s)) s) p.
Proof.
  intros Hq Hkeep (mt0 & c & Hp & Hc). unfold vec_set. simpl.
  destruct (decide (q = p)) as [->|Hne].
  - simplify_eq. destruct Hkeep as [c' Hc']; [by eexists|].
    exists mt', c'. split; [|done].
    apply list_lookup_insert_eq. by eapply lookup_lt_Some.
  - exists mt0, c. split; [|done]. by rewrite list_lookup_insert_ne.
Qed.

Lemma exec_evolves (o : Op) (s s' : State) :
  exec o s = Ret tt s' → evolves s s'.
Proof.
  destruct o as [|m name|m path|m paths|m t|m duration|m prefix|m suffix
                 |m metric|t name description labels buckets objectives
                 |metric t name description labels buckets objectives];
    simpl; intros H.
  - unfold bind, ret in H. destruct (GetMonitor s) as [p s1|] eqn:HG; [|done].
    simplify_eq. apply GetMonitor_inv in HG as [[_ ->]|(Hnil & -> & ->)].
    + apply evolves_refl.
    + split; [intros p; simpl; congruence|]. split; [done|].
      intros m mon' name q Hm Hname. simpl in Hm.
      apply lookup_app_Some in Hm as [Hm|[_ Hm]]; [eauto|].
      apply list_lookup_singleton_Some in Hm as [_ <-]. simpl in Hname.
      by rewrite lookup_empty in Hname.
  - unfold bind, ret in H.
    destruct (GetMetric m name s) as [p s1|] eqn:HG; [|done]. simplify_eq.
    apply GetMetric_inv in HG as (mon & _ & [[_ ->]|(_ & _ & ->)]).
    + apply evolves_refl.
    + apply evolves_alloc.
  - eapply evolves_field_update, SetMetricPath_inv, H.
  - eapply evolves_field_update, SetExcludePaths_inv, H.
  - eapply evolves_field_update, SetSlowTime_inv, H.
  - eapply evolves_field_update, SetDuration_inv, H.
  - unfold SetMetricPrefix in H. simplify_eq. by apply evolves_same_heaps.
  - unfold SetMetricSuffix in H. simplify_eq. by apply evolves_same_heaps.
  - unfold bind, ret in H.
    destruct (AddMetric m metric s) as [[e|] s1|] eqn:HA; [| |done];
      simplify_eq.
    + apply AddMetric_error_inv in HA as ->. apply evolves_refl.
    + apply AddMetric_success_inv in HA
        as (mt & mon & c & r & Hmt & Hmon & Hfree & Hne & Hc & Hr & ->).
      assert (Hstore : ∀ p, vec_set s p →
        vec_set (mkState (<[metric := set_vec c mt]> (metricHeap s))
                   (<[m := withMetric (Name mt) metric mon]> (monitorHeap s))
                   (monitor s) (names s) r) p).
      { intros p Hp.
        destruct (vec_set_store s metric mt (set_vec c mt) p Hmt) as
          (mt' & c' & Hp' & Hc'); [by eexists|done|].
        by exists mt', c'. }
      split; [done|]. split; [done|].
      intros m' mon' name' p Hm' Hname. simpl in Hm'.
      apply list_lookup_insert_Some in Hm' as [(-> & <- & _)|[_ Hm']];
        [|eauto].
      simpl in Hname. apply lookup_insert_Some in Hname as [[<- <-]|[_ Hname]];
        [|eauto].
      left. split; [done|]. exists (set_vec c mt), c. split; [|done]. simpl.
      apply list_lookup_insert_eq. by eapply lookup_lt_Some.
  - unfold bind, newMetric, ret in H. simplify_eq. apply evolves_alloc.
  - unfold bind, loadMetric in H.
    destruct (metricHeap s !! metric) as [mt|] eqn:Hmt; [|done].
    rewrite (storeMetric_live _ _ mt) in H by done. simplify_eq.
    split; [done|]. split.
    + intros p. by apply (vec_set_store s metric mt).
    + intros m mon' name' p ??. eauto.
Qed.

(** ** Invariants of runs *)

Lemma execAll_cons_inv (o : Op) (os : list Op) (s s' : State) :
  execAll (o :: os) s = Ret tt s' →
  ∃ s1, exec o s = Ret tt s1 ∧ execAll os s1 = Ret tt s'.
Proof.
  simpl. unfold bind. destruct (exec o s) as [[] s1|]; [|done]. eauto.
Qed.

Lemma registry_ok_step (s s' : State) :
  evolves s s' → registry_ok s → registry_ok s'.
Proof.
  intros (_ & Hvec & Hreg) Hok m mon' name p Hm Hname.
  destruct (Hreg m mon' name p Hm Hname) as [?|(mon & Hm0 & Hname0)]; [done|].
  destruct (Hok m mon name p Hm0 Hname0). auto.
Qed.

Lemma registry_ok_execAll (os : list Op) (s s' : State) :
  execAll os s = Ret tt s' → registry_ok s → registry_ok s'.
Proof.
  revert s. induction os as [|o os IH]; intros s H Hok.
  - unfold execAll, ret in H. by simplify_eq.
  - apply execAll_cons_inv in H as (s1 & Ho & Hos).
    eapply IH; [done|]. eapply registry_ok_step; [|done].
    by eapply exec_evolves.
Qed.

Lemma registry_ok_reachable (s : State) : reachable s → registry_ok s.
Proof.
  intros (s0 & os & (_ & Hm & _) & Hrun).
  eapply registry_ok_execAll; [done|].
  intros m mon name p Hmon. by rewrite Hm in Hmon.
Qed.

Lemma monitor_stable (os : list Op) (s s' : State) (p : nat) :
  execAll os s = Ret tt s' → monitor s = Some p → monitor s' = Some p.
Proof.
  revert s. induction os as [|o os IH]; intros s H Hp.
  - unfold execAll, ret in H. by simplify_eq.
  - apply execAll_cons_inv in H as (s1 & Ho & Hos).
    eapply IH; [done|]. by apply (exec_evolves o s s1 Ho).
Qed.

(** * The claims *)

(** A handler's error never reaches the caller of [AddMetric]: whenever the
    kind has a handler and the handler fails, the result is the text for an
    unknown kind, and the state is the one before the call. *)
Lemma AddMetric_handler_error (s : State) (m metric : nat) (mt : Metric)
    (mon : Monitor) :
  metricHeap s !! metric = Some mt → monitorHeap s !! m = Some mon →
  metrics mon !! Name mt = None → Name mt ≠ "" →
  collectorFor mt = None →
  AddMetric m metric s = Ret (Some (unknownTypeError (Type_ mt))) s.
Proof.
  intros Hmt Hmon Hfree Hne Hc.
  rewrite (AddMetric_eq s m metric mt mon Hmt Hmon), Hfree, Hc.
  by case_decide.
Qed.

(** C1, evaluated on a Monitor with an empty registry.  For a Histogram
    declaration without buckets [histogramHandler] returns its "cannot lose
    bucket param" error, and [AddMetric] returns "metric type '3' not
    existed." in its place; for a Summary declaration without objectives
    [summaryHandler] returns its "cannot lose objectives param" error, and
    [AddMetric] returns "metric type '4' not existed.".  In both cases the
    state, and so the registry, is the one before the call. *)
Theorem AddMetric_drops_handler_error (n : MetricNames) (r : Registerer) :
  let s := sampleState n r in
  histogramHandler 0 s
  = Ret (Some "metric 'req_latency' is histogram type, cannot lose bucket param.")
      s ∧
  AddMetric 0 0 s = Ret (Some "metric type '3' not existed.") s ∧
  summaryHandler 1 s
  = Ret (Some "metric 'req_quantiles' is summary type, cannot lose objectives param.")
      s ∧
  AddMetric 0 1 s = Ret (Some "metric type '4' not existed.") s.
Proof.
  intros s. split; [reflexivity|]. split.
  - by rewrite (AddMetric_handler_error s 0 0 _ _ eq_refl eq_refl).
  - split; [reflexivity|].
    by rewrite (AddMetric_handler_error s 0 1 _ _ eq_refl eq_refl).
Qed.

(** C2.  [AddMetric] is atomic on failure: when it returns an error the whole
    state (both object stores, so every registered entry and the object it
    points to, and the package variables) is the state before the call; and in
    every state a client can reach, every entry of a registry points to an
    object whose collector handle is set. *)
Theorem AddMetric_failure_atomic :
  (∀ (s s' : State) (m metric : nat) (e : string),
     AddMetric m metric s = Ret (Some e) s' → s' = s) ∧
  (∀ (s : State) (m : nat) (mon : Monitor) (name : string) (p : nat),
     reachable s → monitorHeap s !! m = Some mon →
     metrics mon !! name = Some p →
     ∃ mt c, metricHeap s !! p = Some mt ∧ vec mt = Some c).
Proof.
  split.
  - intros s s' m metric e. apply AddMetric_error_inv.
  - intros s m mon name p Hreach Hmon Hname.
    by destruct (registry_ok_reachable s Hreach m mon name p Hmon Hname).
Qed.

(** C3.  [GetMetric] on a live Monitor always returns a pointer, never an
    error: for a registered name the pointer stored under it, with the state
    untouched; for any other name a pointer to a new object that holds the
    zero value (kind None, empty name, no collector handle), every older
    object and the Monitors being as before. *)
Theorem GetMetric_total (s : State) (m : nat) (mon : Monitor) (name : string) :
  monitorHeap s !! m = Some mon →
  (∀ p, metrics mon !! name = Some p → GetMetric m name s = Ret p s) ∧
  (metrics mon !! name = None →
   ∃ p s', GetMetric m name s = Ret p s' ∧
     metricHeap s !! p = None ∧
     metricHeap s' !! p = Some (mkMetric None_ "" "" [] [] [] None) ∧
     (∀ q mt, metricHeap s !! q = Some mt → metricHeap s' !! q = Some mt) ∧
     monitorHeap s' = monitorHeap s ∧ monitor s' = monitor s ∧
     names s' = names s ∧ registerer s' = registerer s).
Proof.
  intros Hmon. unfold GetMetric, bind, loadMonitor. rewrite Hmon. split.
  - by intros p ->.
  - intros ->. eexists _, _. split; [reflexivity|]. simpl.
    split; [by apply lookup_ge_None_2|].
    split; [by apply list_lookup_middle|].
    split; [|done]. intros q mt Hq. by apply lookup_app_l_Some.
Qed.

(** C4.  The prefix setter prepends to the current value of each of the seven
    names, so two calls compound with the later prefix outermost
    ([b ++ a ++ x]; with [b = a] the prefix is doubled), and the order of two
    different prefixes matters; the suffix setter appends in the same way
    ([x ++ a ++ b]). *)
Theorem SetMetricPrefix_compounds (s : State) (m : nat) (a b : string) :
  (∃ s1 s2,
     SetMetricPrefix m a s = Ret tt s1 ∧ SetMetricPrefix m b s1 = Ret tt s2 ∧
     names s2 =
       mkNames (b +:+ a +:+ metricRequestTotal (names s))
         (b +:+ a +:+ metricRequestUVTotal (names s))
         (b +:+ a +:+ metricURIRequestTotal (names s))
         (b +:+ a +:+ metricRequestBody (names s))
         (b +:+ a +:+ metricResponseBody (names s))
         (b +:+ a +:+ metricRequestDuration (names s))
         (b +:+ a +:+ metricSlowRequest (names s))) ∧
  (∃ s1 s2,
     SetMetricSuffix m a s = Ret tt s1 ∧ SetMetricSuffix m b s1 = Ret tt s2 ∧
     names s2 =
       mkNames ((metricRequestTotal (names s) +:+ a) +:+ b)
         ((metricRequestUVTotal (names s) +:+ a) +:+ b)
         ((metricURIRequestTotal (names s) +:+ a) +:+ b)
         ((metricRequestBody (names s) +:+ a) +:+ b)
         ((metricResponseBody (names s) +:+ a) +:+ b)
         ((metricRequestDuration (names s) +:+ a) +:+ b)
         ((metricSlowRequest (names s) +:+ a) +:+ b)) ∧
  (∃ s2 t2,
     (SetMetricPrefix m "a";; SetMetricPrefix m "b") s = Ret tt s2 ∧
     (SetMetricPrefix m "b";; SetMetricPrefix m "a") s = Ret tt t2 ∧
     metricRequestTotal (names s2) = "ba" +:+ metricRequestTotal (names s) ∧
     metricRequestTotal (names t2) = "ab" +:+ metricRequestTotal (names s) ∧
     metricRequestTotal (names s2) ≠ metricRequestTotal (names t2)).
Proof.
  split; [|split].
  - by eexists _, _.
  - by eexists _, _.
  - eexists _, _. split; [reflexivity|]. split; [reflexivity|]. done.
Qed.

(** C5.  The checks of [AddMetric] run in a fixed order.  A declaration whose
    name is already in the registry gets the "is existed" error whatever its
    kind and its other fields are; a declaration with the empty name (the
    empty name not being in the registry) gets the "cannot be empty" error
    whatever its kind is.  The state is unchanged in both cases. *)
Theorem AddMetric_validation_order (s : State) (m metric : nat) (mt : Metric)
    (mon : Monitor) :
  metricHeap s !! metric = Some mt → monitorHeap s !! m = Some mon →
  (∀ p, metrics mon !! Name mt = Some p →
        AddMetric m metric s
        = Ret (Some ("metric '" +:+ Name mt +:+ "' is existed")) s) ∧
  (metrics mon !! Name mt = None → Name mt = "" →
   AddMetric m metric s = Ret (Some "metric name cannot be empty.") s).
Proof.
  intros Hmt Hmon. rewrite (AddMetric_eq s m metric mt mon Hmt Hmon). split.
  - by intros p ->.
  - intros -> Hempty. by case_decide.
Qed.

(** C6.  Registration and lookup round-trip: for a Counter or Gauge
    declaration with a non-empty name that is not in the registry, and that
    the exporter accepts, [AddMetric] returns [nil], and [GetMetric] with that
    name then returns the declaration's pointer, whose [Type] and [Name] are
    those of the declaration. *)
Theorem AddMetric_GetMetric_roundtrip (s : State) (m metric : nat) (mt : Metric)
    (mon : Monitor) :
  metricHeap s !! metric = Some mt → monitorHeap s !! m = Some mon →
  Type_ mt = Counter ∨ Type_ mt = Gauge →
  Name mt ≠ "" → metrics mon !! Name mt = None →
  is_Some (MustRegister (registerer s)
             (if decide (Type_ mt = Counter)
              then NewCounterVec (Name mt) (Description mt) (Labels mt)
              else NewGaugeVec (Name mt) (Description mt) (Labels mt))) →
  ∃ s' mt',
    AddMetric m metric s = Ret None s' ∧
    GetMetric m (Name mt) s' = Ret metric s' ∧
    metricHeap s' !! metric = Some mt' ∧
    Type_ mt' = Type_ mt ∧ Name mt' = Name mt.
Proof.
  intros Hmt Hmon Hkind Hne Hfree [r Hr].
  rewrite (AddMetric_eq s m metric mt mon Hmt Hmon), Hfree.
  assert (Hc : ∃ c, collectorFor mt = Some c ∧
                    MustRegister (registerer s) c = Some r).
  { unfold collectorFor. destruct Hkind as [Hk|Hk]; rewrite Hk in *.
    - eexists. split; [reflexivity|]. exact Hr.
    - eexists. split; [reflexivity|]. exact Hr. }
  destruct Hc as (c & -> & ->). destruct (decide (Name mt = "")); [done|].
  eexists _, (set_vec c mt). split; [reflexivity|].
  assert (Hlt : m < length (monitorHeap s)) by by eapply lookup_lt_Some.
  assert (Hlt' : metric < length (metricHeap s)) by by eapply lookup_lt_Some.
  split; [|split; [|done]].
  - unfold GetMetric, bind, loadMonitor. simpl.
    rewrite list_lookup_insert_eq by done. simpl.
    by rewrite lookup_insert_eq.
  - simpl. by apply list_lookup_insert_eq.
Qed.

(** C7.  [GetMonitor] is a lazily made singleton: called while [monitor] is
    [nil] it makes a new Monitor with the defaults (slow time 5, path
    "/debug/metrics", no excluded paths, duration buckets 0.1, 0.3, 1.2, 5, 10,
    empty registry and metadata), keeps every older object, and sets
    [monitor]; after that, whatever the client does in between, every call
    returns that same pointer and changes nothing. *)
Theorem GetMonitor_singleton (s : State) :
  monitor s = None →
  ∃ p s1,
    GetMonitor s = Ret p s1 ∧
    monitorHeap s !! p = None ∧
    monitorHeap s1 !! p
    = Some (mkMonitor 5 "/debug/metrics" [] [0.1; 0.3; 1.2; 5; 10]%float ∅ ∅) ∧
    monitor s1 = Some p ∧
    (∀ q mon, monitorHeap s !! q = Some mon → monitorHeap s1 !! q = Some mon) ∧
    metricHeap s1 = metricHeap s ∧ names s1 = names s ∧
    registerer s1 = registerer s ∧
    (∀ os s2, execAll os s1 = Ret tt s2 → GetMonitor s2 = Ret p s2).
Proof.
  intros Hnil. unfold GetMonitor at 1, bind, newMonitor. rewrite Hnil.
  eexists _, _. split; [reflexivity|]. simpl.
  split; [by apply lookup_ge_None_2|].
  split; [by apply list_lookup_middle|].
  split; [done|].
  split; [intros q mon Hq; by apply lookup_app_l_Some|].
  do 3 (split; [done|]).
  intros os s2 Hrun. unfold GetMonitor.
  by rewrite (monitor_stable os _ s2 _ Hrun eq_refl).
Qed.

(** C8.  For a declaration with a non-empty name that is not in the registry
    and a kind other than Counter, Gauge, Histogram and Summary (None
    included), the dispatch table has no handler and [AddMetric] returns the
    "not existed" error that carries the kind in decimal; the state, and so
    the registry, is unchanged. *)
Theorem AddMetric_unknown_type (s : State) (m metric : nat) (mt : Metric)
    (mon : Monitor) :
  metricHeap s !! metric = Some mt → monitorHeap s !! m = Some mon →
  Name mt ≠ "" → metrics mon !! Name mt = None →
  Type_ mt ≠ Counter → Type_ mt ≠ Gauge →
  Type_ mt ≠ Histogram → Type_ mt ≠ Summary →
  promTypeHandler !! Type_ mt = None ∧
  AddMetric m metric s
  = Ret (Some ("metric type '" +:+ pretty (Type_ mt) +:+ "' not existed.")) s.
Proof.
  intros Hmt Hmon Hne Hfree H1 H2 H3 H4.
  assert (Hnone : promTypeHandler !! Type_ mt = None).
  { rewrite promTypeHandler_lookup. by repeat case_decide. }
  split; [done|].
  assert (Hc : collectorFor mt = None) by by apply handler_none.
  rewrite (AddMetric_handler_error s m metric mt mon Hmt Hmon Hfree Hne Hc).
  reflexivity.
Qed.

(** C9.  In every state a client can reach, the empty string is not a key of
    any Monitor's registry, and so [GetMetric] with the empty name returns a
    pointer to a new zero-value [Metric]. *)
Theorem empty_name_never_registered (s : State) (m : nat) (mon : Monitor) :
  reachable s → monitorHeap s !! m = Some mon →
  metrics mon !! "" = None ∧
  ∃ p s', GetMetric m "" s = Ret p s' ∧
    metricHeap s !! p = None ∧ metricHeap s' !! p = Some zeroMetric.
Proof.
  intros Hreach Hmon.
  assert (Hfree : metrics mon !! "" = None).
  { destruct (metrics mon !! "") as [p|] eqn:Hp; [|done].
    by destruct (registry_ok_reachable s Hreach m mon "" p Hmon Hp). }
  split; [done|].
  unfold GetMetric, bind, loadMonitor, newMetric. rewrite Hmon, Hfree.
  eexists _, _. split; [reflexivity|]. simpl.
  split; [by apply lookup_ge_None_2|by apply list_lookup_middle].
Qed.

(** C10.  Each of the four field setters replaces the Monitor at [m] by one
    that differs in the designated field only (the registry and the metadata
    are the old ones) and changes nothing else in the state; the prefix and
    suffix setters leave both object stores, so every Monitor and every
    registry, as they are. *)
Theorem setters_frame (s : State) (m : nat) (mon : Monitor) :
  monitorHeap s !! m = Some mon →
  (∀ path, ∃ s', SetMetricPath m path s = Ret tt s' ∧
     updates_monitor m
       (mkMonitor (slowTime mon) path (excludePaths mon) (reqDuration mon)
          (metrics mon) (metadata mon)) s s') ∧
  (∀ paths, ∃ s', SetExcludePaths m paths s = Ret tt s' ∧
     updates_monitor m
       (mkMonitor (slowTime mon) (metricPath mon) paths (reqDuration mon)
          (metrics mon) (metadata mon)) s s') ∧
  (∀ t, ∃ s', SetSlowTime m t s = Ret tt s' ∧
     updates_monitor m
       (mkMonitor t (metricPath mon) (excludePaths mon) (reqDuration mon)
          (metrics mon) (metadata mon)) s s') ∧
  (∀ duration, ∃ s', SetDuration m duration s = Ret tt s' ∧
     updates_monitor m
       (mkMonitor (slowTime mon) (metricPath mon) (excludePaths mon) duration
          (metrics mon) (metadata mon)) s s') ∧
  (∀ prefix, ∃ s', SetMetricPrefix m prefix s = Ret tt s' ∧
     monitorHeap s' = monitorHeap s ∧ metricHeap s' = metricHeap s ∧
     monitor s' = monitor s ∧ registerer s' = registerer s) ∧
  (∀ suffix, ∃ s', SetMetricSuffix m suffix s = Ret tt s' ∧
     monitorHeap s' = monitorHeap s ∧ metricHeap s' = metricHeap s ∧
     monitor s' = monitor s ∧ registerer s' = registerer s).
Proof.
  intros Hmon.
  repeat split; intros v;
    unfold SetMetricPath, SetExcludePaths, SetSlowTime, SetDuration, bind,
      loadMonitor; rewrite ?Hmon, ?(storeMonitor_live s m mon) by done;
    (eexists; split; [reflexivity|]); unfold updates_monitor; by simpl.
Qed.

(** * Further properties of the package *)

Lemma collectorFor_Some (mt : Metric) (c : Collector) :
  collectorFor mt = Some c ↔ handlerBuilds mt c.
Proof.
  unfold collectorFor, handlerBuilds, Counter, Gauge, Histogram, Summary.
  split.
  - intros H. repeat case_decide; simplify_eq; try (by eauto);
      destruct (Buckets mt) eqn:?, (Objectives mt) eqn:?; naive_solver.
  - intros [[Hk ->]|[[Hk ->]|[(Hk & Hb & ->)|(Hk & Ho & ->)]]];
      rewrite Hk; repeat case_decide; try done.
    + by destruct (Buckets mt).
    + by destruct (Objectives mt).
Qed.


(** X2.  What a successful [AddMetric] changes: the registry of [m] gains the
    one key [Name], bound to the pointer passed in, with every other key as
    before; the object passed in keeps its exported fields and gets the
    collector its handler built; the exporter has registered that collector;
    every other object, the other fields of the Monitor, [monitor] and the
    seven names are as before. *)
Theorem AddMetric_success_effect (s s' : State) (m metric : nat) :
  AddMetric m metric s = Ret None s' →
  ∃ mt mon mt' mon' c,
    metricHeap s !! metric = Some mt ∧ monitorHeap s !! m = Some mon ∧
    metricHeap s' !! metric = Some mt' ∧ monitorHeap s' !! m = Some mon' ∧
    handlerBuilds mt c ∧ vec mt' = Some c ∧ sameExported mt' mt ∧
    MustRegister (registerer s) c = Some (registerer s') ∧
    metrics mon !! Name mt = None ∧
    metrics mon' !! Name mt = Some metric ∧
    (∀ k, k ≠ Name mt → metrics mon' !! k = metrics mon !! k) ∧
    size (metrics mon') = S (size (metrics mon)) ∧
    slowTime mon' = slowTime mon ∧ metricPath mon' = metricPath mon ∧
    excludePaths mon' = excludePaths mon ∧ reqDuration mon' = reqDuration mon ∧
    metadata mon' = metadata mon ∧
    (∀ q, q ≠ metric → metricHeap s' !! q = metricHeap s !! q) ∧
    (∀ q, q ≠ m → monitorHeap s' !! q = monitorHeap s !! q) ∧
    monitor s' = monitor s ∧ names s' = names s.
Proof.
  intros H. apply AddMetric_success_inv in H
    as (mt & mon & c & r & Hmt & Hmon & Hfree & Hne & Hc & Hr & ->).
  exists mt, mon, (set_vec c mt), (withMetric (Name mt) metric mon), c. simpl.
  split; [done|]. split; [done|].
  split; [apply list_lookup_insert_eq; by eapply lookup_lt_Some|].
  split; [apply list_lookup_insert_eq; by eapply lookup_lt_Some|].
  split; [by apply collectorFor_Some|]. split; [done|].
  split; [by repeat split|]. split; [done|]. split; [done|].
  split; [by rewrite lookup_insert_eq|].
  split; [intros k Hk; by rewrite lookup_insert_ne|].
  split; [by apply map_size_insert_None|].
  do 5 (split; [done|]).
  split; [intros q Hq; by rewrite list_lookup_insert_ne|].
  split; [intros q Hq; by rewrite list_lookup_insert_ne|]. done.
Qed.


(** X4.  The error of [AddMetric] is always one of three texts: the duplicate
    text with the name, the empty-name text, or the unknown-kind text with the
    kind in decimal.  The texts that the Histogram and Summary handlers build
    are never returned. *)
Theorem AddMetric_error_text (s s' : State) (m metric : nat) (e : string) :
  AddMetric m metric s = Ret (Some e) s' →
  ∃ mt, metricHeap s !! metric = Some mt ∧
    (e = "metric '" +:+ Name mt +:+ "' is existed" ∨
     e = "metric name cannot be empty." ∨
     e = "metric type '" +:+ pretty (Type_ mt) +:+ "' not existed.").
Proof.
  intros H. destruct (AddMetric_live _ _ _ _ _ H) as (mt & mon & Hmt & Hmon).
  rewrite (AddMetric_eq s m metric mt mon Hmt Hmon) in H.
  exists mt. split; [done|]. unfold unknownTypeError in H.
  repeat case_match; simplify_eq; auto.
Qed.

(** X5.  After a successful [AddMetric], a further [AddMetric] on the same
    Monitor with any declaration of the same name (the same pointer included)
    returns the duplicate error and changes nothing. *)
Theorem AddMetric_then_duplicate (s s1 : State) (m metric metric2 : nat)
    (mt1 mt2 : Metric) :
  AddMetric m metric s = Ret None s1 →
  metricHeap s1 !! metric = Some mt1 → metricHeap s1 !! metric2 = Some mt2 →
  Name mt2 = Name mt1 →
  AddMetric m metric2 s1
  = Ret (Some ("metric '" +:+ Name mt2 +:+ "' is existed")) s1.
Proof.
  intros H H1 H2 Hname. apply AddMetric_success_inv in H
    as (mt & mon & c & r & Hmt & Hmon & Hfree & Hne & Hc & Hr & ->).
  simpl in H1, H2.
  rewrite list_lookup_insert_eq in H1 by (by eapply lookup_lt_Some).
  simplify_eq.
  rewrite (AddMetric_eq _ m metric2 mt2 (withMetric (Name mt) metric mon));
    [|done|simpl; apply list_lookup_insert_eq; by eapply lookup_lt_Some].
  simpl. rewrite Hname. simpl. by rewrite lookup_insert_eq.
Qed.

Lemma exec_keeps_entries (o : Op) (s s' : State) (m : nat) (mon : Monitor)
    (name : string) (p : nat) :
  exec o s = Ret tt s' →
  monitorHeap s !! m = Some mon → metrics mon !! name = Some p →
  ∃ mon', monitorHeap s' !! m = Some mon' ∧ metrics mon' !! name = Some p.
Proof.
  intros H Hm Hname.
  assert (Hfield : ∀ m0, field_update m0 s s' →
    ∃ mon', monitorHeap s' !! m = Some mon' ∧ metrics mon' !! name = Some p).
  { intros m0 (mon0 & mon0' & Hm0 & Hreg & _ & ->). simpl.
    destruct (decide (m0 = m)) as [->|Hne].
    - exists mon0'. assert (mon0 = mon) as -> by congruence.
      split; [apply list_lookup_insert_eq; by eapply lookup_lt_Some|].
      by rewrite Hreg.
    - exists mon. by rewrite list_lookup_insert_ne. }
  destruct o as [|m0 name0|m0 path|m0 paths|m0 t|m0 duration|m0 prefix
                 |m0 suffix|m0 metric|t name0 description labels buckets
                 objectives|metric t name0 description labels buckets
                 objectives]; simpl in H.
  - unfold bind, ret in H. destruct (GetMonitor s) as [q s1|] eqn:HG; [|done].
    simplify_eq. apply GetMonitor_inv in HG as [[_ ->]|(_ & _ & ->)]; [eauto|].
    exists mon. split; [|done]. simpl. by apply lookup_app_l_Some.
  - unfold bind, ret in H.
    destruct (GetMetric m0 name0 s) as [q s1|] eqn:HG; [|done]. simplify_eq.
    apply GetMetric_inv in HG as (mon0 & _ & [[_ ->]|(_ & _ & ->)]); eauto.
  - eapply Hfield, SetMetricPath_inv, H.
  - eapply Hfield, SetExcludePaths_inv, H.
  - eapply Hfield, SetSlowTime_inv, H.
  - eapply Hfield, SetDuration_inv, H.
  - unfold SetMetricPrefix in H. simplify_eq. eauto.
  - unfold SetMetricSuffix in H. simplify_eq. eauto.
  - unfold bind, ret in H.
    destruct (AddMetric m0 metric s) as [[e|] s1|] eqn:HA; [| |done];
      simplify_eq.
    + apply AddMetric_error_inv in HA as ->. eauto.
    + apply AddMetric_success_inv in HA
        as (mt & mon0 & c & r & Hmt & Hmon0 & Hfree & Hne & Hc & Hr & ->).
      simpl. destruct (decide (m0 = m)) as [->|Hm0].
      * assert (mon0 = mon) as -> by congruence.
        exists (withMetric (Name mt) metric mon).
        split; [apply list_lookup_insert_eq; by eapply lookup_lt_Some|].
        simpl. rewrite lookup_insert_ne; [done|]. congruence.
      * exists mon. by rewrite list_lookup_insert_ne.
  - unfold bind, newMetric, ret in H. simplify_eq. eauto.
  - unfold bind, loadMetric in H.
    destruct (metricHeap s !! metric) as [mt|] eqn:Hmt; [|done].
    rewrite (storeMetric_live _ _ mt) in H by done. simplify_eq. eauto.
Qed.

(** X6.  The registry only grows: an entry that is in a Monitor's registry
    stays there, bound to the same pointer, through every run of calls and
    client assignments, and [GetMetric] keeps returning that pointer.  No
    function of the package deletes or rebinds a name. *)
Theorem registry_append_only (os : list Op) (s s' : State) (m : nat)
    (mon : Monitor) (name : string) (p : nat) :
  execAll os s = Ret tt s' →
  monitorHeap s !! m = Some mon → metrics mon !! name = Some p →
  (∃ mon', monitorHeap s' !! m = Some mon' ∧ metrics mon' !! name = Some p) ∧
  GetMetric m name s' = Ret p s'.
Proof.
  intros Hrun Hm Hname.
  assert (Hkeep : ∃ mon', monitorHeap s' !! m = Some mon' ∧
                          metrics mon' !! name = Some p).
  { revert s mon Hrun Hm Hname. induction os as [|o os IH];
      intros s mon Hrun Hm Hname.
    - unfold execAll, ret in Hrun. simplify_eq. eauto.
    - apply execAll_cons_inv in Hrun as (s1 & Ho & Hos).
      destruct (exec_keeps_entries o s s1 m mon name p Ho Hm Hname)
        as (mon1 & Hm1 & Hname1). by eapply IH. }
  split; [done|]. destruct Hkeep as (mon' & Hm' & Hname').
  unfold GetMetric, bind, loadMonitor, ret. by rewrite Hm', Hname'.
Qed.

Lemma exec_monitors (o : Op) (s s' : State) :
  exec o s = Ret tt s' →
  (monitor s' = monitor s ∧
   length (monitorHeap s') = length (monitorHeap s)) ∨
  (monitor s = None ∧ monitor s' = Some (length (monitorHeap s)) ∧
   length (monitorHeap s') = S (length (monitorHeap s))).
Proof.
  intros H.
  assert (Hfield : ∀ m0, field_update m0 s s' →
    monitor s' = monitor s ∧ length (monitorHeap s') = length (monitorHeap s)).
  { intros m0 (mon0 & mon0' & Hm0 & _ & _ & ->). simpl.
    by rewrite length_insert. }
  destruct o as [|m0 name0|m0 path|m0 paths|m0 t|m0 duration|m0 prefix
                 |m0 suffix|m0 metric|t name0 description labels buckets
                 objectives|metric t name0 description labels buckets
                 objectives]; simpl in H.
  - unfold bind, ret in H. destruct (GetMonitor s) as [q s1|] eqn:HG; [|done].
    simplify_eq. apply GetMonitor_inv in HG as [[_ ->]|(Hnil & -> & ->)];
      [by left|].
    right. simpl. rewrite length_app. simpl. split; [done|].
    split; [done|lia].
  - unfold bind, ret in H.
    destruct (GetMetric m0 name0 s) as [q s1|] eqn:HG; [|done]. simplify_eq.
    apply GetMetric_inv in HG as (mon0 & _ & [[_ ->]|(_ & _ & ->)]); by left.
  - left. eapply Hfield, SetMetricPath_inv, H.
  - left. eapply Hfield, SetExcludePaths_inv, H.
  - left. eapply Hfield, SetSlowTime_inv, H.
  - left. eapply Hfield, SetDuration_inv, H.
  - unfold SetMetricPrefix in H. simplify_eq. by left.
  - unfold SetMetricSuffix in H. simplify_eq. by left.
  - unfold bind, ret in H.
    destruct (AddMetric m0 metric s) as [[e|] s1|] eqn:HA; [| |done];
      simplify_eq.
    + apply AddMetric_error_inv in HA as ->. by left.
    + apply AddMetric_success_inv in HA
        as (mt & mon0 & c & r & _ & _ & _ & _ & _ & _ & ->).
      left. simpl. by rewrite length_insert.
  - unfold bind, newMetric, ret in H. simplify_eq. by left.
  - unfold bind, loadMetric in H.
    destruct (metricHeap s !! metric) as [mt|] eqn:Hmt; [|done].
    rewrite (storeMetric_live _ _ mt) in H by done. simplify_eq. by left.
Qed.

Lemma single_monitor_execAll (os : list Op) (s s' : State) :
  execAll os s = Ret tt s' → single_monitor s → single_monitor s'.
Proof.
  revert s. induction os as [|o os IH]; intros s H Hone.
  - unfold execAll, ret in H. by simplify_eq.
  - apply execAll_cons_inv in H as (s1 & Ho & Hos). eapply IH; [done|].
    unfold single_monitor in *.
    destruct (exec_monitors o s s1 Ho) as [[Hp Hlen]|(Hnil & Hp & Hlen)].
    + rewrite Hp, Hlen. destruct Hone as [[? Hh]|?]; [left|by right].
      split; [done|]. apply length_zero_iff_nil. by rewrite Hlen, Hh.
    + right. destruct Hone as [[_ Hh]|[? _]]; [|congruence].
      rewrite Hp, Hlen, Hh. done.
Qed.

(** X7.  In every state a client can reach there is at most one Monitor, and
    every live Monitor pointer is the one held in [monitor]: the pointer that
    [GetMonitor] returns, without a change of state. *)
Theorem reachable_single_monitor (s : State) (m : nat) (mon : Monitor) :
  reachable s → monitorHeap s !! m = Some mon →
  length (monitorHeap s) = 1 ∧ monitor s = Some m ∧ GetMonitor s = Ret m s.
Proof.
  intros (s0 & os & (_ & Hm0 & Hp0) & Hrun) Hm.
  assert (Hone : single_monitor s).
  { eapply single_monitor_execAll; [done|]. by left. }
  destruct Hone as [[_ Hh]|[Hp Hlen]]; [by rewrite Hh in Hm|].
  assert (m = 0) as -> by (apply lookup_lt_Some in Hm; lia).
  split; [done|]. split; [done|]. unfold GetMonitor. by rewrite Hp.
Qed.

Lemma append_cons (a : Ascii.ascii) (x y : string) :
  String a x +:+ y = String a (x +:+ y).
Proof. reflexivity. Qed.

Lemma append_assoc (x y z : string) : (x +:+ y) +:+ z = x +:+ (y +:+ z).
Proof.
  induction x as [|a x IH]; [reflexivity|].
  by rewrite !append_cons, IH.
Qed.

Lemma append_empty_r (x : string) : x +:+ "" = x.
Proof.
  induction x as [|a x IH]; [reflexivity|]. by rewrite append_cons, IH.
Qed.

(** X8.  The prefix and suffix setters compose like string concatenation: two
    prefix calls are one call with the later prefix in front, two suffix calls
    are one call with the later suffix behind, a prefix call and a suffix call
    commute, and a call with the empty string changes nothing. *)
Theorem prefix_suffix_compose (s : State) (m : nat) (a b : string) :
  (SetMetricPrefix m a;; SetMetricPrefix m b) s = SetMetricPrefix m (b +:+ a) s ∧
  (SetMetricSuffix m a;; SetMetricSuffix m b) s = SetMetricSuffix m (a +:+ b) s ∧
  (SetMetricPrefix m a;; SetMetricSuffix m b) s
  = (SetMetricSuffix m b;; SetMetricPrefix m a) s ∧
  SetMetricPrefix m "" s = Ret tt s ∧
  SetMetricSuffix m "" s = Ret tt s.
Proof.
  unfold bind, SetMetricPrefix, SetMetricSuffix, set_names. simpl.
  split; [by rewrite !append_assoc|].
  split; [by rewrite !append_assoc|].
  split; [by rewrite !append_assoc|].
  destruct s as [h1 h2 p [n1 n2 n3 n4 n5 n6 n7] r]. simpl.
  split; [done|]. by rewrite !append_empty_r.
Qed.

(** X9.  The four field setters overwrite and commute: of two calls of one
    setter on a Monitor only the second counts, and calls of two different
    setters on a Monitor give the same state in either order (on a [nil]
    receiver both sides panic). *)
Theorem setters_overwrite_commute (s : State) (m : nat) (p1 p2 : string)
    (e1 e2 : list string) (t1 t2 : Z) (d1 d2 : list float) :
  (SetMetricPath m p1;; SetMetricPath m p2) s = SetMetricPath m p2 s ∧
  (SetExcludePaths m e1;; SetExcludePaths m e2) s = SetExcludePaths m e2 s ∧
  (SetSlowTime m t1;; SetSlowTime m t2) s = SetSlowTime m t2 s ∧
  (SetDuration m d1;; SetDuration m d2) s = SetDuration m d2 s ∧
  (SetMetricPath m p1;; SetExcludePaths m e1) s
  = (SetExcludePaths m e1;; SetMetricPath m p1) s ∧
  (SetMetricPath m p1;; SetSlowTime m t1) s
  = (SetSlowTime m t1;; SetMetricPath m p1) s ∧
  (SetMetricPath m p1;; SetDuration m d1) s
  = (SetDuration m d1;; SetMetricPath m p1) s ∧
  (SetExcludePaths m e1;; SetSlowTime m t1) s
  = (SetSlowTime m t1;; SetExcludePaths m e1) s ∧
  (SetExcludePaths m e1;; SetDuration m d1) s
  = (SetDuration m d1;; SetExcludePaths m e1) s ∧
  (SetSlowTime m t1;; SetDuration m d1) s
  = (SetDuration m d1;; SetSlowTime m t1) s.
Proof.
  unfold SetMetricPath, SetExcludePaths, SetSlowTime, SetDuration, bind,
    loadMonitor, storeMonitor.
  destruct (monitorHeap s !! m) as [mon|] eqn:Hmon; [|done].
  assert (Hlt : m < length (monitorHeap s)) by by eapply lookup_lt_Some.
  repeat (rewrite ?Hmon, ?list_lookup_insert_eq by done; simpl).
  unfold set_monitorHeap. simpl. by rewrite !list_insert_insert_eq.
Qed.

(** X10.  [GetMetric] never inserts and never hands out one sentinel twice:
    two lookups of a name that is not registered return two different
    pointers, each to a zero-value [Metric] of its own, and the Monitors are
    as before, so the name is still not registered. *)
Theorem GetMetric_absent_twice (s s1 s2 : State) (m p1 p2 : nat)
    (mon : Monitor) (name : string) :
  monitorHeap s !! m = Some mon → metrics mon !! name = None →
  GetMetric m name s = Ret p1 s1 → GetMetric m name s1 = Ret p2 s2 →
  p1 ≠ p2 ∧ metricHeap s2 !! p1 = Some zeroMetric ∧
  metricHeap s2 !! p2 = Some zeroMetric ∧ monitorHeap s2 = monitorHeap s.
Proof.
  intros Hm Hname H1 H2.
  apply GetMetric_inv in H1 as (mon1 & Hm1 & [[? _]|(_ & -> & ->)]);
    [congruence|].
  apply GetMetric_inv in H2 as (mon2 & Hm2 & [[Hreg _]|(_ & -> & ->)]).
  { simpl in Hm2. congruence. }
  simpl. rewrite length_app. simpl. split; [lia|].
  split; [|split; [|done]].
  - apply lookup_app_l_Some. by apply list_lookup_middle.
  - apply list_lookup_middle. by rewrite length_app.
Qed.

(** X11.  The registry holds the pointer that was passed in, not a copy: when
    the client assigns to the exported fields of a declaration after its
    registration, [GetMetric] with the name it was registered under returns
    the same pointer, and the object read through it has the new fields
    (the new name included) and still the collector built at registration. *)
Theorem registered_pointer_is_shared (s s1 s2 : State) (m metric : nat)
    (old : Metric) (t : MetricType) (name description : string)
    (labels : list string) (buckets : list float)
    (objectives : list (float * float)) :
  metricHeap s !! metric = Some old →
  AddMetric m metric s = Ret None s1 →
  exec (ClientAssign metric t name description labels buckets objectives) s1
  = Ret tt s2 →
  ∃ c, handlerBuilds old c ∧
    GetMetric m (Name old) s2 = Ret metric s2 ∧
    metricHeap s2 !! metric
    = Some (mkMetric t name description labels buckets objectives (Some c)).
Proof.
  intros Hold HA HC. apply AddMetric_success_inv in HA
    as (mt & mon & c & r & Hmt & Hmon & Hfree & Hne & Hc & Hr & ->).
  simplify_eq. simpl in HC. unfold bind, loadMetric in HC. simpl in HC.
  assert (Hlt : metric < length (metricHeap s)) by by eapply lookup_lt_Some.
  assert (Hlt' : m < length (monitorHeap s)) by by eapply lookup_lt_Some.
  rewrite list_lookup_insert_eq in HC by done.
  unfold storeMetric in HC. simpl in HC.
  rewrite list_lookup_insert_eq in HC by done. simplify_eq.
  exists c. split; [by apply collectorFor_Some|]. split.
  - unfold GetMetric, bind, loadMonitor, ret. simpl.
    rewrite list_lookup_insert_eq by done. simpl. by rewrite lookup_insert_eq.
  - simpl. rewrite list_insert_insert_eq. by apply list_lookup_insert_eq.
Qed.

(** X12.  A handler of the dispatch table touches nothing but the object it
    is given: the Monitors, [monitor], the seven names, the exporter and every
    other object are as before, and the object keeps its exported fields.
    When the handler returns [nil] the object has a collector; when it returns
    an error the state is unchanged. *)
Theorem handler_frame (t : MetricType) (f : nat → M (option string))
    (s s' : State) (metric : nat) (e : option string) :
  promTypeHandler !! t = Some f → f metric s = Ret e s' →
  monitorHeap s' = monitorHeap s ∧ monitor s' = monitor s ∧
  names s' = names s ∧ registerer s' = registerer s ∧
  length (metricHeap s') = length (metricHeap s) ∧
  (∀ q, q ≠ metric → metricHeap s' !! q = metricHeap s !! q) ∧
  ∃ mt mt',
    metricHeap s !! metric = Some mt ∧ metricHeap s' !! metric = Some mt' ∧
    sameExported mt' mt ∧
    match e with
    | None => is_Some (vec mt')
    | Some _ => s' = s
    end.
Proof.
  intros Hf H. rewrite promTypeHandler_lookup in Hf.
  assert (Hstore : ∀ mt c,
    metricHeap s !! metric = Some mt →
    e = None → s' = set_metricHeap (<[metric := set_vec c mt]> (metricHeap s)) s →
    monitorHeap s' = monitorHeap s ∧ monitor s' = monitor s ∧
    names s' = names s ∧ registerer s' = registerer s ∧
    length (metricHeap s') = length (metricHeap s) ∧
    (∀ q, q ≠ metric → metricHeap s' !! q = metricHeap s !! q) ∧
    ∃ mt0 mt', metricHeap s !! metric = Some mt0 ∧
      metricHeap s' !! metric = Some mt' ∧ sameExported mt' mt0 ∧
      match e with None => is_Some (vec mt') | Some _ => s' = s end).
  { intros mt c Hmt -> ->. simpl. do 4 (split; [done|]).
    split; [by rewrite length_insert|].
    split; [intros q Hq; by rewrite list_lookup_insert_ne|].
    exists mt, (set_vec c mt). split; [done|].
    split; [apply list_lookup_insert_eq; by eapply lookup_lt_Some|].
    split; [by repeat split|]. by eexists. }
  assert (Hfail : ∀ mt msg,
    metricHeap s !! metric = Some mt → e = Some msg → s' = s →
    monitorHeap s' = monitorHeap s ∧ monitor s' = monitor s ∧
    names s' = names s ∧ registerer s' = registerer s ∧
    length (metricHeap s') = length (metricHeap s) ∧
    (∀ q, q ≠ metric → metricHeap s' !! q = metricHeap s !! q) ∧
    ∃ mt0 mt', metricHeap s !! metric = Some mt0 ∧
      metricHeap s' !! metric = Some mt' ∧ sameExported mt' mt0 ∧
      match e with None => is_Some (vec mt') | Some _ => s' = s end).
  { intros mt msg Hmt -> ->. do 6 (split; [done|]). exists mt, mt.
    by repeat split. }
  repeat case_decide; simplify_eq;
    unfold counterHandler, gaugeHandler, histogramHandler, summaryHandler,
      bind, loadMetric, ret in H;
    destruct (metricHeap s !! metric) as [mt|] eqn:Hmt; try done;
    repeat case_decide;
    rewrite ?(storeMetric_live s metric mt) in H by done; simplify_eq;
    eauto.
Qed.


(** X14.  One object under two names: when a pointer that is already bound to
    a key [k] is passed to [AddMetric] again and the call succeeds (its name
    was changed in between), both names are bound to that pointer, and the
    object's collector is the new one, built for the new name: the collector
    stored at the first registration is overwritten. *)
Theorem AddMetric_alias_second_name (s s' : State) (m metric : nat)
    (mt : Metric) (mon : Monitor) (k : string) :
  metricHeap s !! metric = Some mt → monitorHeap s !! m = Some mon →
  metrics mon !! k = Some metric →
  AddMetric m metric s = Ret None s' →
  k ≠ Name mt ∧
  GetMetric m k s' = Ret metric s' ∧ GetMetric m (Name mt) s' = Ret metric s' ∧
  ∃ c, handlerBuilds mt c ∧ metricHeap s' !! metric = Some (set_vec c mt).
Proof.
  intros Hmt Hmon Hk HA. apply AddMetric_success_inv in HA
    as (mt0 & mon0 & c & r & Hmt0 & Hmon0 & Hfree & Hne & Hc & Hr & ->).
  assert (mt0 = mt) as -> by congruence.
  assert (mon0 = mon) as -> by congruence.
  assert (Hk' : k ≠ Name mt) by congruence.
  assert (Hlt : metric < length (metricHeap s)) by by eapply lookup_lt_Some.
  assert (Hlt' : m < length (monitorHeap s)) by by eapply lookup_lt_Some.
  split; [done|]. unfold GetMetric, bind, loadMonitor, ret. simpl.
  rewrite !list_lookup_insert_eq by done. simpl.
  rewrite lookup_insert_eq, lookup_insert_ne, Hk by done.
  split; [done|]. split; [done|]. exists c.
  split; [by apply collectorFor_Some|done].
Qed.

End Registry.

Arguments Ret {Registerer A} a s.
Arguments Panic {Registerer A}.

(** * Examples: the claims at concrete inputs *)

Lemma sampleRun_result :
  execAll sampleRegister sampleRun (startState sampleNames [])
  = Ret tt (afterSampleRun sampleNames ["http_requests"]).
Proof. vm_compute. reflexivity. Qed.

Lemma afterSampleRun_reachable :
  reachable sampleRegister (afterSampleRun sampleNames ["http_requests"]).
Proof.
  exists (startState sampleNames []), sampleRun.
  split; [done|apply sampleRun_result].
Qed.

(** C2 at the sample states: the failed registration of the bucket-less
    Histogram leaves the state as it was, and the one registry entry of the
    reachable state points to an object with its handle. *)
Lemma AddMetric_failure_atomic_witness :
  (∃ s',
     AddMetric sampleRegister 0 0 (sampleState sampleNames [])
     = Ret (Some "metric type '3' not existed.") s' ∧
     s' = sampleState sampleNames []) ∧
  (∃ mt c,
     metricHeap (afterSampleRun sampleNames ["http_requests"]) !! 0 = Some mt ∧
     vec mt = Some c).
Proof.
  split.
  - exists (sampleState sampleNames []). split; [reflexivity|].
    apply (proj1 (AddMetric_failure_atomic sampleRegister)
             (sampleState sampleNames []) (sampleState sampleNames []) 0 0
             "metric type '3' not existed.").
    reflexivity.
  - apply (proj2 (AddMetric_failure_atomic sampleRegister)
             (afterSampleRun sampleNames ["http_requests"]) 0 sampleMonitor
             "http_requests" 0).
    + apply afterSampleRun_reachable.
    + reflexivity.
    + reflexivity.
Defined.

(** C3 at the sample state: a registered and an unregistered name. *)
Lemma GetMetric_total_witness :
  GetMetric 0 "http_requests" (afterSampleRun sampleNames ["http_requests"])
  = Ret 0 (afterSampleRun sampleNames ["http_requests"]) ∧
  ∃ p s',
    GetMetric 0 "absent" (afterSampleRun sampleNames ["http_requests"])
    = Ret p s' ∧
    metricHeap s' !! p = Some (mkMetric None_ "" "" [] [] [] None).
Proof.
  split.
  - apply (proj1 (GetMetric_total
                    (afterSampleRun sampleNames ["http_requests"]) 0
                    sampleMonitor "http_requests" eq_refl) 0).
    reflexivity.
  - destruct (proj2 (GetMetric_total
                       (afterSampleRun sampleNames ["http_requests"]) 0
                       sampleMonitor "absent" eq_refl) eq_refl)
      as (p & s' & Hget & _ & Hzero & _).
    exists p, s'. split; [exact Hget|exact Hzero].
Defined.

(** C5 at the sample state: a declaration of kind 9 under the registered
    name, and a declaration of kind 9 under the empty name. *)
Lemma AddMetric_validation_order_witness :
  AddMetric sampleRegister 0 1 (afterSampleRun sampleNames ["http_requests"])
  = Ret (Some "metric 'http_requests' is existed")
      (afterSampleRun sampleNames ["http_requests"]) ∧
  AddMetric sampleRegister 0 2 (afterSampleRun sampleNames ["http_requests"])
  = Ret (Some "metric name cannot be empty.")
      (afterSampleRun sampleNames ["http_requests"]).
Proof.
  split.
  - apply (proj1 (AddMetric_validation_order sampleRegister
                    (afterSampleRun sampleNames ["http_requests"]) 0 1
                    (mkMetric 9%Z "http_requests" "" [] [] [] None)
                    sampleMonitor eq_refl eq_refl) 0).
    reflexivity.
  - apply (proj2 (AddMetric_validation_order sampleRegister
                    (afterSampleRun sampleNames ["http_requests"]) 0 2
                    (mkMetric 9%Z "" "" [] [] [] None)
                    sampleMonitor eq_refl eq_refl)); reflexivity.
Defined.

(** C6 at the sample state: the Gauge declaration at address 4. *)
Lemma AddMetric_GetMetric_roundtrip_witness :
  ∃ s' mt',
    AddMetric sampleRegister 0 4 (afterSampleRun sampleNames ["http_requests"])
    = Ret None s' ∧
    GetMetric 0 "in_flight" s' = Ret 4 s' ∧
    metricHeap s' !! 4 = Some mt' ∧
    Type_ mt' = Gauge ∧ Name mt' = "in_flight".
Proof.
  apply (AddMetric_GetMetric_roundtrip sampleRegister
           (afterSampleRun sampleNames ["http_requests"]) 0 4
           (mkMetric Gauge "in_flight" "" [] [] [] None) sampleMonitor).
  - reflexivity.
  - reflexivity.
  - right. reflexivity.
  - simpl. discriminate.
  - reflexivity.
  - exists ["in_flight"; "http_requests"]. vm_compute. reflexivity.
Defined.

(** C7 at program start. *)
Lemma GetMonitor_singleton_witness :
  ∃ p s1,
    GetMonitor (startState sampleNames ([] : list string)) = Ret p s1 ∧
    monitorHeap s1 !! p
    = Some (mkMonitor 5 "/debug/metrics" [] [0.1; 0.3; 1.2; 5; 10]%float ∅ ∅) ∧
    ∀ s2, execAll sampleRegister sampleRun s1 = Ret tt s2 →
          GetMonitor s2 = Ret p s2.
Proof.
  destruct (GetMonitor_singleton sampleRegister
              (startState sampleNames []) eq_refl)
    as (p & s1 & Hget & _ & Hdef & _ & _ & _ & _ & _ & Hlater).
  exists p, s1. split; [exact Hget|]. split; [exact Hdef|].
  intros s2. apply Hlater.
Defined.

(** C8 at the sample state: the declaration of kind 7 at address 3. *)
Lemma AddMetric_unknown_type_witness :
  promTypeHandler (Registerer:=list string) !! 7%Z = None ∧
  AddMetric sampleRegister 0 3 (afterSampleRun sampleNames ["http_requests"])
  = Ret (Some "metric type '7' not existed.")
      (afterSampleRun sampleNames ["http_requests"]).
Proof.
  apply (AddMetric_unknown_type sampleRegister
           (afterSampleRun sampleNames ["http_requests"]) 0 3
           (mkMetric 7%Z "k" "" [] [] [] None) sampleMonitor);
    first [reflexivity | simpl; discriminate].
Defined.

(** C9 at the sample state. *)
Lemma empty_name_never_registered_witness :
  metrics sampleMonitor !! "" = None ∧
  ∃ p s',
    GetMetric 0 "" (afterSampleRun sampleNames ["http_requests"]) = Ret p s' ∧
    metricHeap (afterSampleRun sampleNames ["http_requests"]) !! p = None ∧
    metricHeap s' !! p = Some zeroMetric.
Proof.
  apply (empty_name_never_registered sampleRegister
           (afterSampleRun sampleNames ["http_requests"]) 0 sampleMonitor).
  - apply afterSampleRun_reachable.
  - reflexivity.
Defined.

(** C10 at the sample state: the path setter and the prefix setter. *)
Lemma setters_frame_witness :
  (∃ s',
     SetMetricPath 0 "/metrics" (afterSampleRun sampleNames ["http_requests"])
     = Ret tt s' ∧
     monitorHeap s'
     = [mkMonitor 5 "/metrics" [] defaultDuration
          {[ "http_requests" := 0 ]} ∅] ∧
     metricHeap s'
     = metricHeap (afterSampleRun sampleNames ["http_requests"])) ∧
  (∃ s',
     SetMetricPrefix 0 "gin_" (afterSampleRun sampleNames ["http_requests"])
     = Ret tt s' ∧
     monitorHeap s' = [sampleMonitor]).
Proof.
  pose proof (setters_frame (afterSampleRun sampleNames ["http_requests"]) 0
                sampleMonitor eq_refl) as (Hpath & _ & _ & _ & Hprefix & _).
  split.
  - destruct (Hpath "/metrics") as (s' & Hset & Hmon & Hheap & _).
    exists s'. split; [exact Hset|]. split; [exact Hmon|exact Hheap].
  - destruct (Hprefix "gin_") as (s' & Hset & Hmon & _).
    exists s'. split; [exact Hset|exact Hmon].
Defined.

(** * Examples: the further properties at concrete inputs *)

Local Abbreviation sampleEnd := (afterSampleRun sampleNames ["http_requests"]).
Local Abbreviation gaugeDecl := (mkMetric Gauge "in_flight" "" [] [] [] None).
Local Abbreviation afterGauge :=
  (stateOf (AddMetric sampleRegister 0 4 sampleEnd) sampleEnd).


(** X2: registering the Gauge adds the one key and keeps the old one. *)
Lemma AddMetric_success_effect_witness :
  ∃ mon',
    monitorHeap afterGauge !! 0 = Some mon' ∧
    metrics mon' !! "in_flight" = Some 4 ∧
    metrics mon' !! "http_requests" = Some 0 ∧
    size (metrics mon') = 2 ∧
    registerer afterGauge = ["in_flight"; "http_requests"].
Proof.
  destruct (AddMetric_success_effect sampleRegister sampleEnd afterGauge 0 4)
    as (mt & mon & mt' & mon' & c & Hmt & Hmon & _ & Hmon' & Hc & _ & _ & _ &
        _ & Hnew & Hold & Hsize & _).
  { vm_compute. reflexivity. }
  simpl in Hmt, Hmon. simplify_eq. exists mon'.
  split; [exact Hmon'|]. split; [exact Hnew|].
  split; [rewrite Hold; [reflexivity|discriminate]|].
  split; [rewrite Hsize; reflexivity|]. vm_compute. reflexivity.
Defined.


(** X4: the error for the declaration of kind 7 is the third text. *)
Lemma AddMetric_error_text_witness :
  ∃ mt, metricHeap sampleEnd !! 3 = Some mt ∧
    ("metric type '7' not existed."
     = "metric '" +:+ Name mt +:+ "' is existed" ∨
     "metric type '7' not existed." = "metric name cannot be empty." ∨
     "metric type '7' not existed."
     = "metric type '" +:+ pretty (Type_ mt) +:+ "' not existed.").
Proof.
  apply (AddMetric_error_text sampleRegister sampleEnd sampleEnd 0 3
           "metric type '7' not existed.").
  reflexivity.
Defined.

(** X5: the Gauge, once registered, cannot be registered again. *)
Lemma AddMetric_then_duplicate_witness :
  AddMetric sampleRegister 0 4 afterGauge
  = Ret (Some "metric 'in_flight' is existed") afterGauge.
Proof.
  apply (AddMetric_then_duplicate sampleRegister sampleEnd afterGauge 0 4 4
           (mkMetric Gauge "in_flight" "" [] [] []
              (Some (NewGaugeVec "in_flight" "" [])))
           (mkMetric Gauge "in_flight" "" [] [] []
              (Some (NewGaugeVec "in_flight" "" [])))).
  - vm_compute. reflexivity.
  - reflexivity.
  - reflexivity.
  - reflexivity.
Defined.

(** X6: the Counter stays registered through setters and a registration. *)
Lemma registry_append_only_witness :
  let os := [CallSetMetricPath 0 "/metrics"; CallAddMetric 0 4;
             CallSetMetricPrefix 0 "gin_"] in
  let s' := stateOf (execAll sampleRegister os sampleEnd) sampleEnd in
  GetMetric 0 "http_requests" s' = Ret 0 s'.
Proof.
  intros os s'.
  apply (proj2 (registry_append_only sampleRegister os sampleEnd s' 0
                  sampleMonitor "http_requests" 0
                  ltac:(vm_compute; reflexivity) eq_refl eq_refl)).
Defined.

(** X7: the Monitor of the sample state is the singleton. *)
Lemma reachable_single_monitor_witness :
  length (monitorHeap sampleEnd) = 1 ∧ monitor sampleEnd = Some 0 ∧
  GetMonitor sampleEnd = Ret 0 sampleEnd.
Proof.
  apply (reachable_single_monitor sampleRegister sampleEnd 0 sampleMonitor).
  - apply afterSampleRun_reachable.
  - reflexivity.
Defined.

(** X10: two lookups of an unregistered name. *)
Lemma GetMetric_absent_twice_witness :
  let s1 := stateOf (GetMetric 0 "absent" sampleEnd) sampleEnd in
  let s2 := stateOf (GetMetric 0 "absent" s1) s1 in
  5 ≠ 6 ∧ metricHeap s2 !! 5 = Some zeroMetric ∧
  metricHeap s2 !! 6 = Some zeroMetric ∧
  monitorHeap s2 = monitorHeap sampleEnd.
Proof.
  intros s1 s2.
  apply (GetMetric_absent_twice sampleEnd s1 s2 0 5 6 sampleMonitor "absent");
    reflexivity.
Defined.

(** X11: renaming the Gauge after its registration. *)
Lemma registered_pointer_is_shared_witness :
  let s2 := stateOf (exec sampleRegister
                       (ClientAssign 4 Gauge "renamed" "" [] [] []) afterGauge)
              afterGauge in
  ∃ c, handlerBuilds gaugeDecl c ∧
    GetMetric 0 "in_flight" s2 = Ret 4 s2 ∧
    metricHeap s2 !! 4 = Some (mkMetric Gauge "renamed" "" [] [] [] (Some c)).
Proof.
  intros s2.
  apply (registered_pointer_is_shared sampleRegister sampleEnd afterGauge s2
           0 4 gaugeDecl Gauge "renamed" "" [] [] []).
  - reflexivity.
  - vm_compute. reflexivity.
  - vm_compute. reflexivity.
Defined.

(** X12: the Counter handler run on the Gauge declaration. *)
Lemma handler_frame_witness :
  let s' := stateOf (counterHandler 4 sampleEnd) sampleEnd in
  monitorHeap s' = monitorHeap sampleEnd ∧
  registerer s' = registerer sampleEnd ∧
  ∃ mt', metricHeap s' !! 4 = Some mt' ∧ sameExported mt' gaugeDecl ∧
         is_Some (vec mt').
Proof.
  intros s'.
  destruct (handler_frame Counter counterHandler sampleEnd s' 4 None)
    as (Hmon & _ & _ & Hreg & _ & _ & mt & mt' & Hmt & Hmt' & Hsame & Hvec).
  { vm_compute. reflexivity. }
  { reflexivity. }
  simpl in Hmt. simplify_eq.
  split; [exact Hmon|]. split; [exact Hreg|]. exists mt'.
  split; [exact Hmt'|]. split; [exact Hsame|exact Hvec].
Defined.


(** X14: the registered Counter, renamed and registered again. *)
Lemma AddMetric_alias_second_name_witness :
  let s := stateOf (exec sampleRegister
                      (ClientAssign 0 Counter "renamed" "" [] [] []) sampleEnd)
             sampleEnd in
  let s' := stateOf (AddMetric sampleRegister 0 0 s) s in
  GetMetric 0 "http_requests" s' = Ret 0 s' ∧
  GetMetric 0 "renamed" s' = Ret 0 s' ∧
  metricHeap s' !! 0
  = Some (mkMetric Counter "renamed" "" [] [] []
            (Some (NewCounterVec "renamed" "" []))).
Proof.
  intros s s'.
  destruct (AddMetric_alias_second_name sampleRegister s s' 0 0
              (mkMetric Counter "renamed" "" [] [] []
                 (Some (NewCounterVec "http_requests" "" ["method"; "path"])))
              sampleMonitor "http_requests")
    as (_ & Hold & Hnew & c & Hc & Hobj).
  { reflexivity. }
  { reflexivity. }
  { reflexivity. }
  { vm_compute. reflexivity. }
  split; [exact Hold|]. split; [exact Hnew|]. vm_compute. reflexivity.
Defined.
